(** * neobot: the full-file session server (server.py)

    A shallow embedding of the FastAPI service of [server.py]: the in-memory
    session store, the prompt builders of the three snippet endpoints, the
    helper that calls the text-generation endpoint, and the five handlers.

    The handlers are written in a small state-and-exception monad over the
    process state (the [sessions] dictionary and the list of outbound calls
    made so far).  A Python exception does not roll the state back, so a
    handler maps a state to a result-or-exception together with the state
    reached.  The answer of the remote endpoint is not determined by the
    program: it is an oracle [gemini], a variable of the section that holds
    the handlers.  [uuid.uuid4()] is not determined by the program either:
    the identifier it produces is an argument of [start_session].  The calls
    to [logging] are left out: nothing reads the log. *)

From Stdlib Require Import Ascii String ZArith.
From stdpp Require Import gmap strings list fin_maps pretty.

Local Open Scope string_scope.
Local Open Scope list_scope.
Local Open Scope Z_scope.

(** ** Python strings *)

(** The escape [\n]. *)
Definition LF : string := String "010"%char "".

(** [sep.join(parts)]. *)
Fixpoint join (sep : string) (parts : list string) : string :=
  match parts with
  | [] => ""
  | [p] => p
  | p :: rest => p +:+ sep +:+ join sep rest
  end.

(** Truth value of a [str | None] field: [None] and the empty string are
    false, every other string is true. *)
Definition truthy (field : option string) : bool :=
  match field with
  | Some (String _ _) => true
  | Some EmptyString => false
  | None => false
  end.

(** A [str | None] field interpolated in an f-string. *)
Definition fmt (field : option string) : string :=
  match field with
  | Some s => s
  | None => "None"
  end.

(** ** Data model *)

(** An entry of a session's history: [{"role": ..., "content": ...}]. *)
Record Turn := { role : string; content : string }.

(** A value of the [sessions] dictionary. *)
Record Session := {
  file_name : string;
  full_file : string;
  history : list Turn
}.

Module StartSessionRequest.
Record t := { file_name : string; full_file : string }.
End StartSessionRequest.

Record SnippetRequest := {
  session_id : string;
  snippet : string;
  question : option string;
  programming_lang : option string
}.

(** A JSON object with string values, as the handlers return. *)
Definition JSON := list (string * string).

(** ** The outside world *)

(** What can go wrong inside the [try] block of [ai_response]. *)
Inductive UpstreamFailure :=
| NetworkError    (* requests.post raises a connection error *)
| Timeout         (* requests.post raises after [timeout] seconds *)
| BadStatus       (* response.raise_for_status() raises *)
| MalformedBody.  (* response.json() or the indexing of its value raises *)

(** The outcome of one POST to the endpoint, as far as [ai_response] can
    tell: an exception of some kind whose [str] is [message], or the text in
    [data["candidates"][0]["content"]["parts"][0]["text"]]. *)
Inductive UpstreamResult :=
| Failed (kind : UpstreamFailure) (message : string)
| Replied (text : string).

(** One outbound call: the text placed in the payload and the timeout. *)
Record Outbound := { prompt_text : string; timeout : Z }.

(** The process state: the module-level [sessions] dictionary, and the calls
    made to the endpoint so far. *)
Record World := {
  sessions : gmap string Session;
  outbox : list Outbound
}.

(** ** Exceptions *)

Inductive Exception :=
| HTTPException (status_code : Z) (detail : string)
| RequestException (kind : UpstreamFailure) (message : string).

(** [str(e)].  For an [HTTPException] this is Starlette's [__str__],
    [f"{self.status_code}: {self.detail}"]. *)
Definition str (e : Exception) : string :=
  match e with
  | HTTPException status_code detail => pretty status_code +:+ ": " +:+ detail
  | RequestException _ message => message
  end.

(** ** The handler monad *)

Definition Handler (A : Type) : Type := World -> (Exception + A) * World.

Definition ret {A} (a : A) : Handler A := fun w => (inr a, w).

Definition raise {A} (e : Exception) : Handler A := fun w => (inl e, w).

Definition bind {A B} (m : Handler A) (k : A -> Handler B) : Handler B :=
  fun w =>
    match m w with
    | (inr a, w') => k a w'
    | (inl e, w') => (inl e, w')
    end.

(** [try: m  except Exception as e: h e]. *)
Definition try_except {A} (m : Handler A) (h : Exception -> Handler A) : Handler A :=
  fun w =>
    match m w with
    | (inr a, w') => (inr a, w')
    | (inl e, w') => h e w'
    end.

Notation "'let!' x ':=' m 'in' k" := (bind m (fun x => k))
  (at level 10, x name, m at level 100, k at level 200, only parsing).

(** Reading the global [sessions]. *)
Definition get_sessions : Handler (gmap string Session) :=
  fun w => (inr (sessions w), w).

(** [sessions[session_id] = session]. *)
Definition sessions_setitem (session_id : string) (session : Session) : Handler unit :=
  fun w => (inr tt, {| sessions := <[session_id := session]> (sessions w);
                       outbox := outbox w |}).

Definition append_turn (turn : Turn) (session : Session) : Session :=
  {| file_name := file_name session;
     full_file := full_file session;
     history := history session ++ [turn] |}.

(** [session["history"].append(turn)], where [session] is the dictionary
    that [sessions[session_id]] refers to: the append is seen through the
    store. *)
Definition history_append (session_id : string) (turn : Turn) : Handler unit :=
  fun w => (inr tt, {| sessions := alter (append_turn turn) session_id (sessions w);
                       outbox := outbox w |}).

(** ** Prompts *)

Definition explain_prompt (req : SnippetRequest) (session : Session) : string :=
  let prompt :=
    "Explain the following code snippet in context of the full file in concisely:"
      +:+ LF +:+ snippet req +:+ LF in
  let prompt :=
    if truthy (question req)
    then prompt +:+ ("Question: " +:+ fmt (question req) +:+ LF)
    else prompt in
  let prompt :=
    if truthy (programming_lang req)
    then ("Programming language: " +:+ fmt (programming_lang req) +:+ LF) +:+ prompt
    else prompt in
  let prompt := prompt +:+ (LF +:+ "Full file:" +:+ LF +:+ full_file session +:+ LF +:+ LF) in
  fold_left (fun prompt h => prompt +:+ (role h +:+ ":" +:+ LF +:+ content h +:+ LF))
            (history session) prompt.

Definition fix_prompt (req : SnippetRequest) : string :=
  let prompt :=
    "Fix any bugs in the following code snippet:" +:+ LF +:+ LF +:+ "```" +:+ LF
      +:+ snippet req +:+ LF +:+ "```" +:+ LF +:+ LF in
  let prompt :=
    if truthy (programming_lang req)
    then ("Programming language: " +:+ fmt (programming_lang req) +:+ LF +:+ LF) +:+ prompt
    else prompt in
  prompt +:+ "Return only the corrected code snippet.".

Definition method_completion_prompt (req : SnippetRequest) (full_file : string) : string :=
  let prompt :=
    "Complete the following method within the context of the code:" +:+ LF
      +:+ snippet req +:+ LF +:+ LF +:+ "Full context:" +:+ LF +:+ full_file +:+ LF in
  let prompt :=
    if truthy (programming_lang req)
    then ("Programming language: " +:+ fmt (programming_lang req) +:+ LF) +:+ prompt
    else prompt in
  prompt +:+ (LF +:+ "Return only the completed method implementation.").

(** The list comprehension and the join of [get_full_explanation]. *)
Definition full_explanation (history : list Turn) : string :=
  join (LF +:+ LF) (content <$> filter (fun h => role h = "assistant") history).

Definition session_not_found : Exception := HTTPException 404 "Session not found".

(** ** The service *)

Section Server.

(** The remote endpoint: what a POST of a prompt with a timeout comes to. *)
Variable gemini : string -> Z -> UpstreamResult.

(** The body of the [try] block of [ai_response]: the POST, the status
    check, the decoding and the extraction of the text. *)
Definition requests_post (prompt_text : string) (timeout : Z) : Handler string :=
  fun w =>
    let w' := {| sessions := sessions w;
                 outbox := outbox w ++ [{| prompt_text := prompt_text;
                                           timeout := timeout |}] |} in
    match gemini prompt_text timeout with
    | Replied text => (inr text, w')
    | Failed kind message => (inl (RequestException kind message), w')
    end.

Definition ai_response (prompt_text : string) (timeout : Z) : Handler string :=
  try_except (requests_post prompt_text timeout)
             (fun e => raise (HTTPException 500 (str e))).

Definition start_session (uuid4 : string) (req : StartSessionRequest.t) : Handler JSON :=
  let session_id := uuid4 in
  let! _ := sessions_setitem session_id
              {| file_name := StartSessionRequest.file_name req;
                 full_file := StartSessionRequest.full_file req;
                 history := [] |} in
  ret [("session_id", session_id)].

Definition explain (req : SnippetRequest) : Handler JSON :=
  let! store := get_sessions in
  match store !! session_id req with
  | None => raise session_not_found
  | Some session =>
      let! explanation := ai_response (explain_prompt req session) 40 in
      let! _ := history_append (session_id req) {| role := "user"; content := snippet req |} in
      let! _ := history_append (session_id req)
                  {| role := "assistant"; content := explanation |} in
      ret [("explanation", explanation)]
  end.

(** The handler of [/fix]; [fix] is a keyword here, hence the underscore. *)
Definition fix_ (req : SnippetRequest) : Handler JSON :=
  let! store := get_sessions in
  match store !! session_id req with
  | None => raise session_not_found
  | Some session =>
      let! fixed_code :=
        try_except (ai_response (fix_prompt req) 60)
                   (fun e => raise (HTTPException 500 ("Error: " +:+ str e))) in
      let! _ := history_append (session_id req) {| role := "user"; content := snippet req |} in
      let! _ := history_append (session_id req)
                  {| role := "assistant"; content := fixed_code |} in
      ret [("fixed_code", fixed_code)]
  end.

Definition get_full_explanation (session_id : string) : Handler JSON :=
  let! store := get_sessions in
  match store !! session_id with
  | None => raise session_not_found
  | Some session =>
      let full_exp := full_explanation (history session) in
      ret [("full_explanation", full_exp)]
  end.

Definition method_completion (req : SnippetRequest) : Handler JSON :=
  let! store := get_sessions in
  match store !! session_id req with
  | None => raise session_not_found
  | Some session =>
      let full_file := full_file session in
      let! completed_method :=
        try_except (ai_response (method_completion_prompt req full_file) 60)
                   (fun e => raise (HTTPException 500 ("Error: " +:+ str e))) in
      let! _ := history_append (session_id req) {| role := "user"; content := snippet req |} in
      let! _ := history_append (session_id req)
                  {| role := "assistant"; content := completed_method |} in
      ret [("completed_method", completed_method)]
  end.

End Server.

(** ** The three snippet endpoints, uniformly *)

Inductive Endpoint := Explain | Fix | MethodCompletion.

Definition snippet_handler (gemini : string -> Z -> UpstreamResult)
    (endpoint : Endpoint) : SnippetRequest -> Handler JSON :=
  match endpoint with
  | Explain => explain gemini
  | Fix => fix_ gemini
  | MethodCompletion => method_completion gemini
  end.

(** The prompt an endpoint sends for a request on a stored session. *)
Definition prompt_of (endpoint : Endpoint) (req : SnippetRequest) (session : Session) : string :=
  match endpoint with
  | Explain => explain_prompt req session
  | Fix => fix_prompt req
  | MethodCompletion => method_completion_prompt req (full_file session)
  end.

(** The timeout an endpoint passes to [ai_response] (the default is 40). *)
Definition timeout_of (endpoint : Endpoint) : Z :=
  match endpoint with
  | Explain => 40
  | Fix => 60
  | MethodCompletion => 60
  end.

(** The key of the JSON object an endpoint answers with. *)
Definition response_key (endpoint : Endpoint) : string :=
  match endpoint with
  | Explain => "explanation"
  | Fix => "fixed_code"
  | MethodCompletion => "completed_method"
  end.

(** The detail of the 500 error of an endpoint, from the text of the
    exception raised by the outbound call. *)
Definition error_detail (endpoint : Endpoint) (message : string) : string :=
  match endpoint with
  | Explain => message
  | Fix => "Error: 500: " +:+ message
  | MethodCompletion => "Error: 500: " +:+ message
  end.

Definition user_turn (req : SnippetRequest) : Turn :=
  {| role := "user"; content := snippet req |}.

Definition assistant_turn (text : string) : Turn :=
  {| role := "assistant"; content := text |}.

(** The request with both optional hints left out. *)
Definition without_hints (req : SnippetRequest) : SnippetRequest :=
  {| session_id := session_id req; snippet := snippet req;
     question := None; programming_lang := None |}.

(** ** Requests to the service *)

Inductive Call :=
| StartSession (uuid4 : string) (req : StartSessionRequest.t)
| Snippet (endpoint : Endpoint) (req : SnippetRequest)
| GetFullExplanation (session_id : string).

Definition handle (gemini : string -> Z -> UpstreamResult) (call : Call) : Handler JSON :=
  match call with
  | StartSession uuid4 req => start_session uuid4 req
  | Snippet endpoint req => snippet_handler gemini endpoint req
  | GetFullExplanation session_id => get_full_explanation session_id
  end.

(** What [uuid.uuid4()] promises: the identifier drawn for a new session is
    not one already in use.  [start_session] relies on it and does not look
    the identifier up before the assignment. *)
Definition uuid_is_fresh (call : Call) (w : World) : Prop :=
  match call with
  | StartSession uuid4 _ => sessions w !! uuid4 = None
  | _ => True
  end.

(** A run of the service: each request comes with the behaviour of the
    remote endpoint at that time. *)
Fixpoint serve (calls : list ((string -> Z -> UpstreamResult) * Call)) (w : World) : World :=
  match calls with
  | [] => w
  | (gemini, call) :: rest => serve rest (handle gemini call w).2
  end.

Fixpoint fresh_run (calls : list ((string -> Z -> UpstreamResult) * Call)) (w : World) : Prop :=
  match calls with
  | [] => True
  | (gemini, call) :: rest =>
      uuid_is_fresh call w ∧ fresh_run rest (handle gemini call w).2
  end.

(** [get_full_explanation] called [n] times in a row: the results in order,
    and the state reached. *)
Fixpoint ask_full_explanation (n : nat) (session_id : string) (w : World)
    : list (Exception + JSON) * World :=
  match n with
  | O => ([], w)
  | S n =>
      let once := get_full_explanation session_id w in
      let more := ask_full_explanation n session_id once.2 in
      (once.1 :: more.1, more.2)
  end.

(** ** Specification-side definitions *)

(** The text one history turn contributes to the prompt of [explain]. *)
Definition turn_lines (h : Turn) : string :=
  role h +:+ ":" +:+ LF +:+ content h +:+ LF.

Fixpoint history_lines (history : list Turn) : string :=
  match history with
  | [] => ""
  | h :: rest => turn_lines h +:+ history_lines rest
  end.

(** A hint line that is present when the field is supplied, whatever its
    value: the wording of the specification. *)
Definition hint_if_supplied (label : string) (field : option string) : string :=
  match field with
  | Some s => label +:+ s +:+ LF
  | None => ""
  end.

(** A hint line that is present when the field is supplied and is not the
    empty string. *)
Definition hint_if_nonempty (label : string) (field : option string) : string :=
  match field with
  | Some (String c s) => label +:+ String c s +:+ LF
  | Some EmptyString => ""
  | None => ""
  end.

(** The prompt of [explain] as a single concatenation, over a rule for the
    hint lines. *)
Definition explain_prompt_layout (hint : string -> option string -> string)
    (req : SnippetRequest) (session : Session) : string :=
  hint "Programming language: " (programming_lang req)
  +:+ "Explain the following code snippet in context of the full file in concisely:"
  +:+ LF +:+ snippet req +:+ LF
  +:+ hint "Question: " (question req)
  +:+ LF +:+ "Full file:" +:+ LF +:+ full_file session +:+ LF +:+ LF
  +:+ history_lines (history session).

(** The prompt as the specification words it. *)
Definition explain_prompt_spec : SnippetRequest -> Session -> string :=
  explain_prompt_layout hint_if_supplied.

(** The contents of the assistant turns, in history order, with a blank line
    between two consecutive ones: by recursion on the history, keeping the
    text gathered so far. *)
Fixpoint gather_assistant (so_far : option string) (history : list Turn) : string :=
  match history with
  | [] => default "" so_far
  | h :: rest =>
      if decide (role h = "assistant")
      then gather_assistant
             (Some (match so_far with
                    | None => content h
                    | Some text => text +:+ LF +:+ LF +:+ content h
                    end)) rest
      else gather_assistant so_far rest
  end.

Definition assistant_transcript (history : list Turn) : string :=
  gather_assistant None history.

(** The history with the turns of role ["user"] taken out. *)
Definition drop_user_turns (history : list Turn) : list Turn :=
  filter (fun h => role h ≠ "user") history.

(** The error responses the specification allows for a snippet endpoint: the
    404 of an unknown session, or a 500 whose detail is the text of the
    exception raised by the outbound call. *)
Definition error_as_specified (gemini : string -> Z -> UpstreamResult)
    (endpoint : Endpoint) (req : SnippetRequest) (w : World) (e : Exception) : Prop :=
  e = session_not_found ∨
  ∃ session kind message,
    sessions w !! session_id req = Some session ∧
    gemini (prompt_of endpoint req session) (timeout_of endpoint) = Failed kind message ∧
    e = HTTPException 500 message.

(** Append-only histories: every session of [store] is still a session of
    [store'], with a history that starts with the one it had. *)
Definition histories_extended (store store' : gmap string Session) : Prop :=
  ∀ sid session,
    store !! sid = Some session →
    ∃ session', store' !! sid = Some session' ∧
                history session `prefix_of` history session'.

(** ** Sample data *)

Definition a_py : Session :=
  {| file_name := "a.py"; full_file := "print(1)"; history := [] |}.

Definition a_py_explained : Session :=
  {| file_name := "a.py"; full_file := "print(1)";
     history := [ {| role := "user"; content := "print(1)" |};
                  {| role := "assistant"; content := "prints 1" |} ] |}.

Definition one_session : World :=
  {| sessions := {[ "s1" := a_py ]}; outbox := [] |}.

Definition ask (session_id : string) (question : option string) : SnippetRequest :=
  {| session_id := session_id; snippet := "print(1)";
     question := question; programming_lang := None |}.

Definition gemini_replies (text : string) : string -> Z -> UpstreamResult :=
  fun _ _ => Replied text.

Definition gemini_fails (kind : UpstreamFailure) (message : string)
    : string -> Z -> UpstreamResult :=
  fun _ _ => Failed kind message.

(** ** Derived notions *)

(** The contents of the ["assistant"] turns of a history, in order. *)
Definition answers (history : list Turn) : list string :=
  content <$> filter (fun h => role h = "assistant") history.

(** A history made of whole exchanges only: a ["user"] turn followed by an
    ["assistant"] turn, any number of times. *)
Fixpoint exchanges_only (history : list Turn) : bool :=
  match history with
  | [] => true
  | [_] => false
  | u :: a :: rest =>
      bool_decide (role u = "user") && bool_decide (role a = "assistant")
        && exchanges_only rest
  end.

(** The outbound calls a request makes from a state: one for a snippet
    request on a stored session, none otherwise. *)
Definition outbound_of (call : Call) (w : World) : list Outbound :=
  match call with
  | Snippet endpoint req =>
      match sessions w !! session_id req with
      | Some session => [ {| prompt_text := prompt_of endpoint req session;
                             timeout := timeout_of endpoint |} ]
      | None => []
      end
  | StartSession _ _ => []
  | GetFullExplanation _ => []
  end.

(** The session a request names: the one it starts, or the one its
    [session_id] refers to.  [get_full_explanation] names one too, but only
    reads it. *)
Definition writes_to (call : Call) (sid : string) : Prop :=
  match call with
  | StartSession uuid4 _ => uuid4 = sid
  | Snippet _ req => session_id req = sid
  | GetFullExplanation _ => False
  end.

(** ** The test server (tests/plugin_tests/test_server.py)

    The stand-in used to try the editor plugin: the same store and routes,
    with the answer of the model replaced by the snippet itself, and one more
    route, [/summary].  Its [snippet] field is optional, so the content of a
    turn and a value of a response may be [None].  It makes no outbound
    call: a handler maps the [sessions] dictionary to a result-or-exception
    and the dictionary reached.  The calls to [print] and [logging] are left
    out. *)

Module TestServer.

Record Turn := { role : string; content : option string }.

Record Session := {
  file_name : string;
  full_file : string;
  history : list Turn
}.

Record SnippetRequest := {
  session_id : string;
  snippet : option string;
  question : option string;
  programming_lang : option string
}.

Definition JSON := list (string * option string).

Definition Handler : Type :=
  gmap string Session -> (Exception + JSON) * gmap string Session.

Definition append_turn (turn : Turn) (session : Session) : Session :=
  {| file_name := file_name session;
     full_file := full_file session;
     history := history session ++ [turn] |}.

Definition start_session (uuid4 : string) (req : StartSessionRequest.t) : Handler :=
  fun sessions =>
    let session_id := uuid4 in
    let sessions :=
      <[session_id := {| file_name := StartSessionRequest.file_name req;
                         full_file := StartSessionRequest.full_file req;
                         history := [] |}]> sessions in
    (inr [("session_id", Some session_id)], sessions).

Definition explain (req : SnippetRequest) : Handler :=
  fun sessions =>
    match sessions !! session_id req with
    | None => (inl session_not_found, sessions)
    | Some session =>
        let explanation := snippet req in
        let sessions :=
          alter (append_turn {| role := "user"; content := snippet req |})
                (session_id req) sessions in
        let sessions :=
          alter (append_turn {| role := "assistant"; content := explanation |})
                (session_id req) sessions in
        (inr [("explanation", explanation)], sessions)
    end.

Definition summary (req : SnippetRequest) : Handler :=
  fun sessions =>
    match sessions !! session_id req with
    | None => (inl session_not_found, sessions)
    | Some curr_session =>
        let explanation := full_file curr_session in
        (inr [("explanation", Some explanation)], sessions)
    end.

(** The handler of [/fix] of the test server. *)
Definition fix_ (req : SnippetRequest) : Handler :=
  fun sessions =>
    match sessions !! session_id req with
    | None => (inl session_not_found, sessions)
    | Some session =>
        let fixed_code := snippet req in
        let sessions :=
          alter (append_turn {| role := "user"; content := snippet req |})
                (session_id req) sessions in
        let sessions :=
          alter (append_turn {| role := "assistant"; content := fixed_code |})
                (session_id req) sessions in
        (inr [("fixed_code", fixed_code)], sessions)
    end.

Definition method_completion (req : SnippetRequest) : Handler :=
  fun sessions =>
    match sessions !! session_id req with
    | None => (inl session_not_found, sessions)
    | Some session =>
        let completed_method := snippet req in
        let sessions :=
          alter (append_turn {| role := "user"; content := snippet req |})
                (session_id req) sessions in
        let sessions :=
          alter (append_turn {| role := "assistant"; content := completed_method |})
                (session_id req) sessions in
        (inr [("completed_method", completed_method)], sessions)
    end.

Definition snippet_handler (endpoint : Endpoint) : SnippetRequest -> Handler :=
  match endpoint with
  | Explain => explain
  | Fix => fix_
  | MethodCompletion => method_completion
  end.

End TestServer.

(** ** The server seen through the test server's types *)

Definition stub_turn (turn : Turn) : TestServer.Turn :=
  {| TestServer.role := role turn; TestServer.content := Some (content turn) |}.

Definition stub_session (session : Session) : TestServer.Session :=
  {| TestServer.file_name := file_name session;
     TestServer.full_file := full_file session;
     TestServer.history := stub_turn <$> history session |}.

Definition stub_request (req : SnippetRequest) : TestServer.SnippetRequest :=
  {| TestServer.session_id := session_id req;
     TestServer.snippet := Some (snippet req);
     TestServer.question := question req;
     TestServer.programming_lang := programming_lang req |}.

Definition stub_response (result : Exception + JSON) : Exception + TestServer.JSON :=
  match result with
  | inl e => inl e
  | inr body => inr ((fun kv : string * string => (kv.1, Some kv.2)) <$> body)
  end.

(** * Properties *)

(** ** Strings *)

Lemma append_cons (c : ascii) (s t : string) :
  String c s +:+ t = String c (s +:+ t).
Proof. reflexivity. Qed.

Lemma append_nil_r (s : string) : s +:+ "" = s.
Proof.
  induction s as [|c s IH]; [reflexivity|].
  rewrite append_cons. by f_equal.
Qed.

Lemma append_assoc (s t u : string) : (s +:+ t) +:+ u = s +:+ (t +:+ u).
Proof.
  induction s as [|c s IH]; [reflexivity|].
  rewrite !append_cons. by f_equal.
Qed.

(** ** The monad *)

Section Run.

Variable gemini : string -> Z -> UpstreamResult.

(** [ai_response] makes one call and turns its failure into a 500 whose
    detail is the text of the exception. *)
Lemma ai_response_run (prompt : string) (seconds : Z) (w : World) :
  ai_response gemini prompt seconds w =
    let w' := {| sessions := sessions w;
                 outbox := outbox w ++ [{| prompt_text := prompt; timeout := seconds |}] |} in
    match gemini prompt seconds with
    | Replied text => (inr text, w')
    | Failed _ message => (inl (HTTPException 500 message), w')
    end.
Proof.
  unfold ai_response, try_except, requests_post, raise.
  by destruct (gemini prompt seconds).
Qed.

(** What a snippet endpoint does, case by case: the session is unknown,
    the outbound call fails, or it replies. *)
Lemma snippet_handler_run (endpoint : Endpoint) (req : SnippetRequest) (w : World) :
  snippet_handler gemini endpoint req w =
    match sessions w !! session_id req with
    | None => (inl session_not_found, w)
    | Some session =>
        let sent :=
          outbox w ++ [{| prompt_text := prompt_of endpoint req session;
                          timeout := timeout_of endpoint |}] in
        match gemini (prompt_of endpoint req session) (timeout_of endpoint) with
        | Failed _ message =>
            (inl (HTTPException 500 (error_detail endpoint message)),
             {| sessions := sessions w; outbox := sent |})
        | Replied text =>
            (inr [(response_key endpoint, text)],
             {| sessions := alter (append_turn (assistant_turn text)) (session_id req)
                              (alter (append_turn (user_turn req)) (session_id req)
                                 (sessions w));
                outbox := sent |})
        end
    end.
Proof.
  destruct endpoint; cbn [snippet_handler prompt_of timeout_of response_key error_detail];
    unfold explain, fix_, method_completion, bind, get_sessions, try_except;
    (destruct (sessions w !! session_id req) as [session|]; [|reflexivity]);
    rewrite ai_response_run; cbn zeta;
    by destruct (gemini _ _).
Qed.

End Run.

(** ** The store after two appends *)

Section Store.

Implicit Types (store : gmap string Session) (u a : Turn).

Lemma two_appends_insert store sid session u a :
  store !! sid = Some session →
  alter (append_turn a) sid (alter (append_turn u) sid store) =
    <[sid := {| file_name := file_name session;
                full_file := full_file session;
                history := history session ++ [u; a] |}]> store.
Proof.
  intros Hsid. apply map_eq. intros k.
  destruct (decide (sid = k)) as [->|Hne].
  - rewrite !lookup_alter_eq, lookup_insert_eq, Hsid. cbn.
    unfold append_turn; cbn. by rewrite <- app_assoc.
  - by rewrite !lookup_alter_ne, lookup_insert_ne.
Qed.

Lemma two_appends_lookup store sid session u a :
  store !! sid = Some session →
  alter (append_turn a) sid (alter (append_turn u) sid store) !! sid =
    Some {| file_name := file_name session;
            full_file := full_file session;
            history := history session ++ [u; a] |}.
Proof.
  intros Hsid. rewrite (two_appends_insert _ _ _ _ _ Hsid).
  apply lookup_insert_eq.
Qed.

Lemma two_appends_other store sid other u a :
  other ≠ sid →
  alter (append_turn a) sid (alter (append_turn u) sid store) !! other = store !! other.
Proof. intros Hne. by rewrite !lookup_alter_ne. Qed.

Lemma two_appends_dom store sid u a :
  dom (alter (append_turn a) sid (alter (append_turn u) sid store)) = dom store.
Proof.
  apply set_eq. intros k. rewrite !elem_of_dom.
  destruct (decide (sid = k)) as [->|Hne].
  - rewrite !lookup_alter_eq, !fmap_is_Some. tauto.
  - rewrite !lookup_alter_ne by done. tauto.
Qed.

End Store.

(** A snippet endpoint answers only on a stored session whose outbound call
    replied; the answer and the state reached are then determined. *)
Lemma snippet_handler_replied gemini endpoint req w body w' :
  snippet_handler gemini endpoint req w = (inr body, w') →
  ∃ session text,
    sessions w !! session_id req = Some session ∧
    gemini (prompt_of endpoint req session) (timeout_of endpoint) = Replied text ∧
    body = [(response_key endpoint, text)] ∧
    sessions w' = alter (append_turn (assistant_turn text)) (session_id req)
                    (alter (append_turn (user_turn req)) (session_id req) (sessions w)).
Proof.
  rewrite snippet_handler_run.
  destruct (sessions w !! session_id req) as [session|] eqn:Hsid; [|discriminate].
  cbn zeta.
  destruct (gemini _ _) as [kind message|text] eqn:Hreply; [discriminate|].
  intros [= <- <-]. by exists session, text.
Qed.

(** ** C1: a successful snippet call appends the exchange *)

(** C1.  Whenever [explain], [fix] or [method_completion] answers (does not
    raise), the session named by the request was in the store, the outbound
    call replied some text, the history of that session afterwards is its
    history before followed by exactly two turns, the ["user"] turn holding
    the snippet and then the ["assistant"] turn holding that text, and the
    body of the response carries the same text under the endpoint's key. *)
Theorem snippet_call_appends_user_then_assistant
    gemini endpoint req w body w' :
  snippet_handler gemini endpoint req w = (inr body, w') →
  ∃ session text,
    sessions w !! session_id req = Some session ∧
    gemini (prompt_of endpoint req session) (timeout_of endpoint) = Replied text ∧
    history <$> sessions w' !! session_id req =
      Some (history session ++ [ {| role := "user"; content := snippet req |};
                                 {| role := "assistant"; content := text |} ]) ∧
    body = [(response_key endpoint, text)].
Proof.
  intros Hrun.
  destruct (snippet_handler_replied _ _ _ _ _ _ Hrun)
    as (session & text & Hsid & Hreply & -> & ->).
  exists session, text. repeat split; try done.
  by rewrite (two_appends_lookup _ _ _ _ _ Hsid).
Qed.

Lemma snippet_call_appends_user_then_assistant_witness :
  snippet_handler (gemini_replies "prints 1") Explain (ask "s1" None) one_session =
    (inr [("explanation", "prints 1")],
     {| sessions := {[ "s1" := a_py_explained ]};
        outbox := [ {| prompt_text := explain_prompt (ask "s1" None) a_py;
                       timeout := 40 |} ] |})
  ∧ ∃ session text,
      sessions one_session !! "s1" = Some session ∧
      gemini_replies "prints 1" (prompt_of Explain (ask "s1" None) session) 40 = Replied text ∧
      history <$> ({[ "s1" := a_py_explained ]} : gmap string Session) !! "s1" =
        Some (history session ++ [ {| role := "user"; content := "print(1)" |};
                                   {| role := "assistant"; content := text |} ]) ∧
      [("explanation", "prints 1")] = [(response_key Explain, text)].
Proof.
  split; [reflexivity|].
  exact (snippet_call_appends_user_then_assistant
           (gemini_replies "prints 1") Explain (ask "s1" None) one_session
           _ _ eq_refl).
Defined.

(** ** C2: an unknown session *)

(** C2.  When the identifier is not a key of the store, each of [explain],
    [fix], [method_completion] (whatever the other fields of the request and
    whatever the remote endpoint would do) and [get_full_explanation] raises
    the 404 error with detail ["Session not found"], and the state is the
    state before: the store is unchanged and no outbound call was made. *)
Theorem unknown_session_is_404_and_nothing_changes gemini sid w :
  sessions w !! sid = None →
  (∀ endpoint req, session_id req = sid →
     snippet_handler gemini endpoint req w =
       (inl (HTTPException 404 "Session not found"), w)) ∧
  get_full_explanation sid w = (inl (HTTPException 404 "Session not found"), w).
Proof.
  intros Hsid. split.
  - intros endpoint req <-. rewrite snippet_handler_run. by rewrite Hsid.
  - unfold get_full_explanation, bind, get_sessions. by rewrite Hsid.
Qed.

Lemma unknown_session_is_404_and_nothing_changes_witness :
  sessions one_session !! "garbage" = None ∧
  (∀ endpoint req, session_id req = "garbage" →
     snippet_handler (gemini_replies "prints 1") endpoint req one_session =
       (inl (HTTPException 404 "Session not found"), one_session)) ∧
  get_full_explanation "garbage" one_session =
    (inl (HTTPException 404 "Session not found"), one_session).
Proof.
  split; [reflexivity|].
  apply (unknown_session_is_404_and_nothing_changes
           (gemini_replies "prints 1") "garbage" one_session).
  reflexivity.
Defined.

(** ** C3: starting a session *)

(** C3.  For every file name and file text (and whatever identifier is
    drawn, on whatever state), [start_session] answers with a session
    identifier under the key ["session_id"], and looking that identifier up
    in the store reached gives the session with that file name, that file
    text and an empty history. *)
Theorem start_session_then_lookup uuid4 name text w :
  ∃ sid,
    (start_session uuid4 {| StartSessionRequest.file_name := name;
                            StartSessionRequest.full_file := text |} w).1
      = inr [("session_id", sid)] ∧
    sessions (start_session uuid4 {| StartSessionRequest.file_name := name;
                                     StartSessionRequest.full_file := text |} w).2 !! sid
      = Some {| file_name := name; full_file := text; history := [] |}.
Proof.
  exists uuid4. split; [reflexivity|].
  cbn. apply lookup_insert_eq.
Qed.

(** The assignment in [start_session] is unconditional: were the identifier
    drawn one already in use, the stored session would be replaced. *)
Example start_session_assigns_unchecked :
  sessions (start_session "s1" {| StartSessionRequest.file_name := "b.py";
                                  StartSessionRequest.full_file := "print(2)" |}
              {| sessions := {[ "s1" := a_py_explained ]}; outbox := [] |}).2
  = {[ "s1" := {| file_name := "b.py"; full_file := "print(2)"; history := [] |} ]}.
Proof. reflexivity. Qed.

(** ** C4: the full explanation *)

Lemma join_cons_cons (sep a b : string) (rest : list string) :
  join sep (a :: b :: rest) = a +:+ sep +:+ join sep (b :: rest).
Proof. reflexivity. Qed.

Lemma join_merge_head (sep a b : string) (rest : list string) :
  join sep ((a +:+ sep +:+ b) :: rest) = join sep (a :: b :: rest).
Proof.
  destruct rest as [|c rest]; [reflexivity|].
  rewrite !join_cons_cons. by rewrite !append_assoc.
Qed.

(** The recursion that keeps the text gathered so far computes the join of
    the selected contents. *)
Lemma gather_assistant_join (so_far : option string) (history : list Turn) :
  gather_assistant so_far history =
    join (LF +:+ LF)
         (option_list so_far ++ (content <$> filter (fun h => role h = "assistant") history)).
Proof.
  revert so_far. induction history as [|h rest IH]; intros so_far.
  - destruct so_far; reflexivity.
  - cbn [gather_assistant]. rewrite filter_cons.
    destruct (decide (role h = "assistant")) as [Hrole|Hrole]; [|apply IH].
    rewrite IH. destruct so_far as [text|]; [|reflexivity].
    cbn [option_list app fmap list_fmap].
    change (text +:+ LF +:+ LF +:+ content h)
      with (text +:+ (LF +:+ LF) +:+ content h).
    apply join_merge_head.
Qed.

Lemma assistant_transcript_full_explanation (history : list Turn) :
  assistant_transcript history = full_explanation history.
Proof. apply gather_assistant_join. Qed.

(** Taking the ["user"] turns out does not change which turns are selected. *)
Lemma filter_assistant_drop_user (history : list Turn) :
  filter (fun h => role h = "assistant") (drop_user_turns history) =
    filter (fun h => role h = "assistant") history.
Proof.
  unfold drop_user_turns.
  induction history as [|h rest IH]; [reflexivity|].
  rewrite !filter_cons.
  destruct (decide (role h ≠ "user")) as [Hnot|Huser].
  - rewrite filter_cons. destruct (decide (role h = "assistant")); by rewrite IH.
  - destruct (decide (role h = "assistant")) as [Hrole|]; [|done].
    exfalso. apply Huser. by rewrite Hrole.
Qed.

(** C4.  On a stored session, [get_full_explanation] answers, under the key
    ["full_explanation"], the contents of the turns of role ["assistant"]
    taken in history order with the two-character separator [LF LF] between
    consecutive ones (the join of exactly the selected contents); turns of
    role ["user"] have no effect: two histories that agree once their
    ["user"] turns are taken out give the same text. *)
Theorem get_full_explanation_joins_assistant_turns sid session w :
  sessions w !! sid = Some session →
  (get_full_explanation sid w).1 =
    inr [("full_explanation", assistant_transcript (history session))] ∧
  assistant_transcript (history session) =
    join (String "010" (String "010" ""))
         (content <$> filter (fun h => role h = "assistant") (history session)) ∧
  ∀ other : list Turn,
    drop_user_turns other = drop_user_turns (history session) →
    assistant_transcript other = assistant_transcript (history session).
Proof.
  intros Hsid. split; [|split].
  - unfold get_full_explanation, bind, get_sessions. rewrite Hsid. cbn.
    by rewrite assistant_transcript_full_explanation.
  - apply gather_assistant_join.
  - intros other Hsame.
    rewrite !assistant_transcript_full_explanation. unfold full_explanation.
    rewrite <- (filter_assistant_drop_user other), Hsame.
    by rewrite filter_assistant_drop_user.
Qed.

Lemma get_full_explanation_joins_assistant_turns_witness :
  ({[ "s1" := a_py_explained ]} : gmap string Session) !! "s1" = Some a_py_explained ∧
  (get_full_explanation "s1" {| sessions := {[ "s1" := a_py_explained ]}; outbox := [] |}).1 =
    inr [("full_explanation", "prints 1")].
Proof.
  split; [reflexivity|].
  exact (proj1 (get_full_explanation_joins_assistant_turns
                  "s1" a_py_explained
                  {| sessions := {[ "s1" := a_py_explained ]}; outbox := [] |}
                  eq_refl)).
Defined.

Example full_explanation_two_answers :
  full_explanation
    [ {| role := "user"; content := "f(x)" |};
      {| role := "assistant"; content := "calls f" |};
      {| role := "user"; content := "g(x)" |};
      {| role := "assistant"; content := "calls g" |} ]
  = "calls f" +:+ LF +:+ LF +:+ "calls g".
Proof. reflexivity. Qed.

(** ** C5: a failed outbound call *)

(** C5.  On a stored session, when the outbound call of [explain], [fix] or
    [method_completion] fails, of whatever kind (network error, timeout, bad
    status, malformed body), the handler raises an [HTTPException] of status
    500 and the store is the store before the request: no turn was
    appended to any history. *)
Theorem upstream_failure_is_500_and_store_unchanged
    gemini endpoint req w session kind message :
  sessions w !! session_id req = Some session →
  gemini (prompt_of endpoint req session) (timeout_of endpoint) = Failed kind message →
  (∃ detail, (snippet_handler gemini endpoint req w).1 = inl (HTTPException 500 detail)) ∧
  sessions (snippet_handler gemini endpoint req w).2 = sessions w.
Proof.
  intros Hsid Hfail. rewrite snippet_handler_run, Hsid. cbn zeta. rewrite Hfail.
  split; [|reflexivity]. by eexists.
Qed.

Lemma upstream_failure_is_500_and_store_unchanged_witness :
  sessions one_session !! "s1" = Some a_py ∧
  gemini_fails Timeout "Read timed out."
    (prompt_of Fix (ask "s1" None) a_py) (timeout_of Fix) = Failed Timeout "Read timed out." ∧
  (∃ detail,
     (snippet_handler (gemini_fails Timeout "Read timed out.") Fix (ask "s1" None) one_session).1
       = inl (HTTPException 500 detail)) ∧
  sessions (snippet_handler (gemini_fails Timeout "Read timed out.") Fix
              (ask "s1" None) one_session).2 = sessions one_session.
Proof.
  split; [reflexivity|]. split; [reflexivity|].
  exact (upstream_failure_is_500_and_store_unchanged
           (gemini_fails Timeout "Read timed out.") Fix (ask "s1" None) one_session
           a_py Timeout "Read timed out." eq_refl eq_refl).
Defined.

(** ** C9: [get_full_explanation] reads only *)

Lemma get_full_explanation_state (sid : string) (w : World) :
  (get_full_explanation sid w).2 = w.
Proof.
  unfold get_full_explanation, bind, get_sessions.
  by destruct (sessions w !! sid).
Qed.

(** C9.  For every state and every identifier, known or not, the state
    after [get_full_explanation] is the state before it; hence any number of
    calls in a row leave the state as it was and all give the result of the
    first. *)
Theorem get_full_explanation_changes_nothing (sid : string) (w : World) :
  (get_full_explanation sid w).2 = w ∧
  ∀ n : nat,
    ask_full_explanation n sid w = (replicate n (get_full_explanation sid w).1, w).
Proof.
  split; [apply get_full_explanation_state|].
  induction n as [|n IH]; [reflexivity|].
  cbn [ask_full_explanation replicate]. cbn zeta.
  rewrite get_full_explanation_state, IH. reflexivity.
Qed.

(** ** C10: what a successful snippet call leaves alone *)

(** C10.  When [explain], [fix] or [method_completion] answers on session
    [session_id req], the store afterwards holds that session with the same
    file name and file text and with the two turns appended, every other
    identifier maps to what it mapped to before, and the set of identifiers
    is the same.  The store reached is the one reached by the request
    stripped of its question and language hints when the endpoint replies the
    same text: the hints reach the prompt only, never the history. *)
Theorem successful_snippet_call_frame gemini endpoint req w body w' :
  snippet_handler gemini endpoint req w = (inr body, w') →
  ∃ session text,
    sessions w !! session_id req = Some session ∧
    body = [(response_key endpoint, text)] ∧
    sessions w' !! session_id req =
      Some {| file_name := file_name session;
              full_file := full_file session;
              history := history session ++ [user_turn req; assistant_turn text] |} ∧
    (∀ other, other ≠ session_id req → sessions w' !! other = sessions w !! other) ∧
    dom (sessions w') = dom (sessions w) ∧
    sessions w' =
      sessions (snippet_handler (gemini_replies text) endpoint (without_hints req) w).2.
Proof.
  intros Hrun.
  destruct (snippet_handler_replied _ _ _ _ _ _ Hrun)
    as (session & text & Hsid & Hreply & -> & ->).
  exists session, text. split; [done|]. split; [done|].
  split; [by apply two_appends_lookup|].
  split; [intros other Hne; by apply two_appends_other|].
  split; [apply two_appends_dom|].
  rewrite snippet_handler_run. cbn [without_hints session_id].
  by rewrite Hsid.
Qed.

Lemma successful_snippet_call_frame_witness :
  ∃ session text,
    sessions one_session !! "s1" = Some session ∧
    [("explanation", "prints 1")] = [(response_key Explain, text)] ∧
    ({[ "s1" := a_py_explained ]} : gmap string Session) !! "s1" =
      Some {| file_name := file_name session;
              full_file := full_file session;
              history := history session
                           ++ [user_turn (ask "s1" (Some "why?")); assistant_turn text] |} ∧
    (∀ other, other ≠ "s1" →
       ({[ "s1" := a_py_explained ]} : gmap string Session) !! other
         = sessions one_session !! other) ∧
    dom ({[ "s1" := a_py_explained ]} : gmap string Session) = dom (sessions one_session) ∧
    ({[ "s1" := a_py_explained ]} : gmap string Session) =
      sessions (snippet_handler (gemini_replies text) Explain
                  (without_hints (ask "s1" (Some "why?"))) one_session).2.
Proof.
  exact (successful_snippet_call_frame
           (gemini_replies "prints 1") Explain (ask "s1" (Some "why?")) one_session
           [("explanation", "prints 1")]
           {| sessions := {[ "s1" := a_py_explained ]};
              outbox := [ {| prompt_text := explain_prompt (ask "s1" (Some "why?")) a_py;
                             timeout := 40 |} ] |}
           eq_refl).
Defined.

(** ** C8: histories only grow *)

Lemma histories_extended_refl (store : gmap string Session) :
  histories_extended store store.
Proof. intros sid session Hsid. by exists session. Qed.

Lemma histories_extended_trans (s1 s2 s3 : gmap string Session) :
  histories_extended s1 s2 → histories_extended s2 s3 → histories_extended s1 s3.
Proof.
  intros H12 H23 sid session Hsid.
  destruct (H12 _ _ Hsid) as (session2 & Hsid2 & Hpre2).
  destruct (H23 _ _ Hsid2) as (session3 & Hsid3 & Hpre3).
  exists session3. split; [done|]. by etrans.
Qed.

Lemma two_appends_extend (store : gmap string Session) (sid : string) (u a : Turn) :
  histories_extended store (alter (append_turn a) sid (alter (append_turn u) sid store)).
Proof.
  intros k session Hk.
  destruct (decide (k = sid)) as [->|Hne].
  - rewrite (two_appends_lookup _ _ _ _ _ Hk). eexists. split; [done|].
    cbn. by apply prefix_app_r.
  - rewrite two_appends_other by done. by exists session.
Qed.

(** One request, served with a fresh identifier if it starts a session,
    extends the histories. *)
Lemma handle_extends_histories gemini call w :
  uuid_is_fresh call w →
  histories_extended (sessions w) (sessions (handle gemini call w).2).
Proof.
  destruct call as [uuid4 req|endpoint req|sid]; cbn [handle uuid_is_fresh].
  - intros Hfresh k session Hk. exists session. split; [|done].
    cbn. rewrite lookup_insert_ne; [done|]. intros ->. congruence.
  - intros _. rewrite snippet_handler_run.
    destruct (sessions w !! session_id req) as [session|];
      [|apply histories_extended_refl].
    cbn zeta. destruct (gemini _ _); cbn [snd sessions].
    + apply histories_extended_refl.
    + apply two_appends_extend.
  - intros _. rewrite get_full_explanation_state. apply histories_extended_refl.
Qed.

(** C8.  For every request to the service ([start_session] with the fresh
    identifier that [uuid4] draws, [explain], [fix], [method_completion],
    [get_full_explanation]), answered or failed, every session of the store
    before the request is a session of the store after it, and its history
    before is a prefix of its history after: no recorded turn is removed or
    moved. *)
Theorem history_is_append_only gemini call w :
  uuid_is_fresh call w →
  ∀ sid session,
    sessions w !! sid = Some session →
    ∃ session',
      sessions (handle gemini call w).2 !! sid = Some session' ∧
      history session `prefix_of` history session'.
Proof.
  intros Hfresh sid session Hsid.
  destruct (handle_extends_histories gemini call w Hfresh sid session Hsid)
    as (session' & Hsid' & Hprefix).
  exists session'. by split.
Qed.

Lemma history_is_append_only_witness :
  uuid_is_fresh
    (StartSession "s2" {| StartSessionRequest.file_name := "b.py";
                          StartSessionRequest.full_file := "print(2)" |})
    {| sessions := {[ "s1" := a_py_explained ]}; outbox := [] |} ∧
  ∀ sid session,
    ({[ "s1" := a_py_explained ]} : gmap string Session) !! sid = Some session →
    ∃ session',
      sessions (handle (gemini_replies "prints 2")
                  (StartSession "s2" {| StartSessionRequest.file_name := "b.py";
                                        StartSessionRequest.full_file := "print(2)" |})
                  {| sessions := {[ "s1" := a_py_explained ]}; outbox := [] |}).2 !! sid
        = Some session' ∧
      history session `prefix_of` history session'.
Proof.
  split; [reflexivity|].
  exact (history_is_append_only (gemini_replies "prints 2")
           (StartSession "s2" {| StartSessionRequest.file_name := "b.py";
                                 StartSessionRequest.full_file := "print(2)" |})
           {| sessions := {[ "s1" := a_py_explained ]}; outbox := [] |} eq_refl).
Defined.

(** The same along any run of the service. *)
Lemma serve_extends_histories calls w :
  fresh_run calls w →
  histories_extended (sessions w) (sessions (serve calls w)).
Proof.
  revert w. induction calls as [|[gemini call] rest IH]; intros w.
  - intros _. apply histories_extended_refl.
  - cbn [fresh_run serve]. intros [Hfresh Hrest].
    eapply histories_extended_trans; [by apply handle_extends_histories|].
    by apply IH.
Qed.

(** The example of the specification: a session is started on [a.py], then
    [explain] is called with the endpoint stubbed to reply ["prints 1"]. *)
Example start_then_explain :
  serve [ (gemini_replies "prints 1",
           StartSession "s1" {| StartSessionRequest.file_name := "a.py";
                                StartSessionRequest.full_file := "print(1)" |});
          (gemini_replies "prints 1", Snippet Explain (ask "s1" None)) ]
        {| sessions := ∅; outbox := [] |}
  = {| sessions := {[ "s1" := a_py_explained ]};
       outbox := [ {| prompt_text := explain_prompt (ask "s1" None) a_py;
                      timeout := 40 |} ] |}.
Proof. reflexivity. Qed.

(** ** C6: the error responses *)

Lemma snippet_handler_raised gemini endpoint req w e :
  (snippet_handler gemini endpoint req w).1 = inl e →
  e = session_not_found ∨
  ∃ session kind message,
    sessions w !! session_id req = Some session ∧
    gemini (prompt_of endpoint req session) (timeout_of endpoint) = Failed kind message ∧
    e = HTTPException 500 (error_detail endpoint message).
Proof.
  rewrite snippet_handler_run.
  destruct (sessions w !! session_id req) as [session|] eqn:Hsid.
  - cbn zeta. destruct (gemini _ _) as [kind message|text] eqn:Hreply; [|discriminate].
    intros [= <-]. right. by exists session, kind, message.
  - intros [= <-]. by left.
Qed.

(** C6, amended.  Every exception a request to the service raises is the 404
    with detail ["Session not found"], or a 500 raised by [explain], [fix]
    or [method_completion] on a stored session whose outbound call failed.
    The detail of the 500 is the text of the failure itself for [explain];
    for [fix] and [method_completion] it is ["Error: "] followed by the
    rendering of the 500 raised by [ai_response], that is
    ["Error: 500: "] followed by the text of the failure. *)
Theorem error_is_404_or_500_with_endpoint_detail gemini call w e :
  (handle gemini call w).1 = inl e →
  e = HTTPException 404 "Session not found" ∨
  ∃ endpoint req session kind message,
    call = Snippet endpoint req ∧
    sessions w !! session_id req = Some session ∧
    gemini (prompt_of endpoint req session) (timeout_of endpoint) = Failed kind message ∧
    e = HTTPException 500
          (match endpoint with
           | Explain => message
           | Fix | MethodCompletion => "Error: " +:+ str (HTTPException 500 message)
           end) ∧
    "Error: " +:+ str (HTTPException 500 message) = "Error: 500: " +:+ message.
Proof.
  destruct call as [uuid4 req|endpoint req|sid]; cbn [handle].
  - discriminate.
  - intros Hraise.
    destruct (snippet_handler_raised _ _ _ _ _ Hraise)
      as [->|(session & kind & message & Hsid & Hfail & ->)]; [by left|].
    right. exists endpoint, req, session, kind, message.
    repeat split; done.
  - unfold get_full_explanation, bind, get_sessions.
    destruct (sessions w !! sid); [discriminate|].
    intros [= <-]. by left.
Qed.

Lemma error_is_404_or_500_with_endpoint_detail_witness :
  (handle (gemini_fails Timeout "Read timed out.") (Snippet Fix (ask "s1" None)) one_session).1
    = inl (HTTPException 500 "Error: 500: Read timed out.") ∧
  (HTTPException 500 "Error: 500: Read timed out." = HTTPException 404 "Session not found" ∨
   ∃ endpoint req session kind message,
     Snippet Fix (ask "s1" None) = Snippet endpoint req ∧
     sessions one_session !! session_id req = Some session ∧
     gemini_fails Timeout "Read timed out."
       (prompt_of endpoint req session) (timeout_of endpoint) = Failed kind message ∧
     HTTPException 500 "Error: 500: Read timed out." =
       HTTPException 500
         (match endpoint with
          | Explain => message
          | Fix | MethodCompletion => "Error: " +:+ str (HTTPException 500 message)
          end) ∧
     "Error: " +:+ str (HTTPException 500 message) = "Error: 500: " +:+ message).
Proof.
  split; [reflexivity|].
  exact (error_is_404_or_500_with_endpoint_detail
           (gemini_fails Timeout "Read timed out.") (Snippet Fix (ask "s1" None))
           one_session (HTTPException 500 "Error: 500: Read timed out.") eq_refl).
Defined.

(** C6 as stated fails: on a stored session whose outbound call times out
    with the text ["Read timed out."], [fix] raises a 500 whose detail is
    ["Error: 500: Read timed out."], not that text; [explain] in the same
    situation raises the 500 with the text itself, so the endpoints do not
    agree either. *)
Lemma fix_detail_is_not_the_exception_text :
  (fix_ (gemini_fails Timeout "Read timed out.") (ask "s1" None) one_session).1
    = inl (HTTPException 500 "Error: 500: Read timed out.") ∧
  (explain (gemini_fails Timeout "Read timed out.") (ask "s1" None) one_session).1
    = inl (HTTPException 500 "Read timed out.") ∧
  ¬ error_as_specified (gemini_fails Timeout "Read timed out.") Fix (ask "s1" None)
      one_session (HTTPException 500 "Error: 500: Read timed out.").
Proof.
  split; [reflexivity|]. split; [reflexivity|].
  intros [Hnotfound|(session & kind & message & _ & Hfail & Hdetail)].
  - discriminate Hnotfound.
  - unfold gemini_fails in Hfail. injection Hfail as _ <-.
    discriminate Hdetail.
Qed.

(** ** C7: the prompt of [explain] *)

Lemma history_lines_app (h1 h2 : list Turn) :
  history_lines (h1 ++ h2) = history_lines h1 +:+ history_lines h2.
Proof.
  induction h1 as [|h rest IH]; [reflexivity|].
  cbn [app history_lines]. by rewrite IH, append_assoc.
Qed.

(** The loop over the history appends the lines of the turns, in order. *)
Lemma fold_left_turn_lines (history : list Turn) (prompt : string) :
  fold_left (fun prompt h => prompt +:+ (role h +:+ ":" +:+ LF +:+ content h +:+ LF))
            history prompt
  = prompt +:+ history_lines history.
Proof.
  revert prompt. induction history as [|h rest IH]; intros prompt.
  - cbn. by rewrite append_nil_r.
  - cbn [fold_left history_lines]. rewrite IH.
    unfold turn_lines. by rewrite append_assoc.
Qed.

Lemma truthy_hint (label : string) (field : option string) :
  hint_if_nonempty label field = if truthy field then label +:+ fmt field +:+ LF else "".
Proof. by destruct field as [[|c s]|]. Qed.

(** The prompt built step by step is the single concatenation. *)
Lemma explain_prompt_closed_form (req : SnippetRequest) (session : Session) :
  explain_prompt req session = explain_prompt_layout hint_if_nonempty req session.
Proof.
  unfold explain_prompt, explain_prompt_layout.
  rewrite fold_left_turn_lines, !truthy_hint.
  destruct (truthy (question req)), (truthy (programming_lang req));
    rewrite ?append_assoc; reflexivity.
Qed.

(** Where every hint is absent or a non-empty string, the prompt is the one
    the specification describes. *)
Lemma explain_prompt_meets_spec (req : SnippetRequest) (session : Session) :
  question req ≠ Some "" →
  programming_lang req ≠ Some "" →
  explain_prompt req session = explain_prompt_spec req session.
Proof.
  intros Hq Hl. rewrite explain_prompt_closed_form.
  unfold explain_prompt_spec, explain_prompt_layout.
  destruct (question req) as [[|c q]|], (programming_lang req) as [[|d l]|];
    done.
Qed.

(** C7, amended.  On a stored session [explain] makes exactly one outbound
    call, with timeout 40, and the prompt it sends is the concatenation, in
    this order, of: the language hint line when [programming_lang] is
    supplied and not empty; the fixed instruction text and the snippet; the
    question hint line when [question] is supplied and not empty; the
    stored file text under ["Full file:"]; and, for every turn of the prior
    history in order, its role and its content. *)
Theorem explain_sends_concatenated_prompt gemini req w session :
  sessions w !! session_id req = Some session →
  outbox (explain gemini req w).2 =
    outbox w ++ [ {| prompt_text := explain_prompt req session; timeout := 40 |} ] ∧
  explain_prompt req session =
    hint_if_nonempty "Programming language: " (programming_lang req)
    +:+ "Explain the following code snippet in context of the full file in concisely:"
    +:+ LF +:+ snippet req +:+ LF
    +:+ hint_if_nonempty "Question: " (question req)
    +:+ LF +:+ "Full file:" +:+ LF +:+ full_file session +:+ LF +:+ LF
    +:+ history_lines (history session).
Proof.
  intros Hsid. split; [|apply explain_prompt_closed_form].
  change (explain gemini req w) with (snippet_handler gemini Explain req w).
  rewrite snippet_handler_run, Hsid. cbn zeta.
  by destruct (gemini _ _).
Qed.

Lemma explain_sends_concatenated_prompt_witness :
  sessions {| sessions := {[ "s1" := a_py_explained ]}; outbox := [] |} !! "s1"
    = Some a_py_explained ∧
  outbox (explain (gemini_replies "it prints")
            (ask "s1" (Some "why?"))
            {| sessions := {[ "s1" := a_py_explained ]}; outbox := [] |}).2 =
    [ {| prompt_text :=
           "Explain the following code snippet in context of the full file in concisely:"
           +:+ LF +:+ "print(1)" +:+ LF
           +:+ "Question: why?" +:+ LF
           +:+ LF +:+ "Full file:" +:+ LF +:+ "print(1)" +:+ LF +:+ LF
           +:+ "user:" +:+ LF +:+ "print(1)" +:+ LF
           +:+ "assistant:" +:+ LF +:+ "prints 1" +:+ LF;
         timeout := 40 |} ].
Proof.
  split; [reflexivity|].
  exact (proj1 (explain_sends_concatenated_prompt
                  (gemini_replies "it prints") (ask "s1" (Some "why?"))
                  {| sessions := {[ "s1" := a_py_explained ]}; outbox := [] |}
                  a_py_explained eq_refl)).
Defined.

(** C7 as stated fails: a question supplied as the empty string is left out
    of the prompt.  The prompt is then the prompt of the request without a
    question, it has no ["Question:"] in it, and it is not the prompt that
    carries a hint line for every supplied hint. *)
Lemma empty_question_is_left_out_of_the_prompt :
  question (ask "s1" (Some "")) = Some "" ∧
  explain_prompt (ask "s1" (Some "")) a_py = explain_prompt (ask "s1" None) a_py ∧
  index 0 "Question:" (explain_prompt (ask "s1" (Some "")) a_py) = None ∧
  explain_prompt (ask "s1" (Some "")) a_py ≠ explain_prompt_spec (ask "s1" (Some "")) a_py.
Proof.
  split; [reflexivity|]. split; [reflexivity|]. split; [by vm_compute|].
  apply String.eqb_neq. by vm_compute.
Qed.

(** * Further properties of the server *)

(** ** The outbound call *)

(** [ai_response] makes exactly one outbound call, with the prompt and the
    timeout it was given, and never touches the store; it returns the text
    exactly when the endpoint replied it, and whatever goes wrong inside its
    [try] block leaves it as an [HTTPException] of status 500 whose detail
    is the text of the failure. *)
Theorem ai_response_one_call_or_500 gemini prompt seconds w :
  sessions (ai_response gemini prompt seconds w).2 = sessions w ∧
  outbox (ai_response gemini prompt seconds w).2 =
    outbox w ++ [ {| prompt_text := prompt; timeout := seconds |} ] ∧
  (∀ text, (ai_response gemini prompt seconds w).1 = inr text ↔
           gemini prompt seconds = Replied text) ∧
  (∀ e, (ai_response gemini prompt seconds w).1 = inl e ↔
        ∃ kind message, gemini prompt seconds = Failed kind message ∧
                        e = HTTPException 500 message).
Proof.
  rewrite ai_response_run. cbn zeta.
  destruct (gemini prompt seconds) as [kind message|reply]; cbn.
  - split; [done|]. split; [done|]. split.
    + intros text. split; discriminate.
    + intros e. split.
      * intros [= <-]. by exists kind, message.
      * intros (kind' & message' & [= <- <-] & ->). done.
  - split; [done|]. split; [done|]. split.
    + intros text. split; congruence.
    + intros e. split; [discriminate|].
      intros (kind & message & Hfail & _). discriminate Hfail.
Qed.

(** Every request makes the outbound calls of [outbound_of], in that order
    after the earlier ones: a snippet request on a stored session makes
    exactly one, whether the endpoint replies or fails (there is no second
    attempt), and [start_session], [get_full_explanation] and a snippet
    request on an unknown session make none. *)
Theorem one_outbound_call_per_stored_snippet_request gemini call w :
  outbox (handle gemini call w).2 = outbox w ++ outbound_of call w.
Proof.
  destruct call as [uuid4 req|endpoint req|sid]; cbn [handle outbound_of].
  - cbn. by rewrite app_nil_r.
  - rewrite snippet_handler_run.
    destruct (sessions w !! session_id req) as [session|]; [|by rewrite app_nil_r].
    cbn zeta. by destruct (gemini _ _).
  - rewrite get_full_explanation_state. by rewrite app_nil_r.
Qed.

(** ** The prompts of [fix] and [method_completion] *)

(** On a stored session [fix] sends, with timeout 60, the language line
    (followed by an empty line) when [programming_lang] is a non-empty
    string, then the instruction, the snippet between code fences and the
    closing instruction.  Neither the question, nor the stored file, nor the
    history is part of it. *)
Theorem fix_sends_the_fenced_snippet gemini req w session :
  sessions w !! session_id req = Some session →
  outbox (fix_ gemini req w).2 =
    outbox w ++
    [ {| prompt_text :=
           match programming_lang req with
           | Some (String c lang) =>
               "Programming language: " +:+ String c lang +:+ LF +:+ LF
           | _ => ""
           end
           +:+ "Fix any bugs in the following code snippet:" +:+ LF +:+ LF
           +:+ "```" +:+ LF +:+ snippet req +:+ LF +:+ "```" +:+ LF +:+ LF
           +:+ "Return only the corrected code snippet.";
         timeout := 60 |} ].
Proof.
  intros Hsid.
  change (fix_ gemini req w) with (snippet_handler gemini Fix req w).
  rewrite snippet_handler_run, Hsid. cbn zeta.
  assert (prompt_of Fix req session =
          match programming_lang req with
          | Some (String c lang) =>
              "Programming language: " +:+ String c lang +:+ LF +:+ LF
          | _ => ""
          end
          +:+ "Fix any bugs in the following code snippet:" +:+ LF +:+ LF
          +:+ "```" +:+ LF +:+ snippet req +:+ LF +:+ "```" +:+ LF +:+ LF
          +:+ "Return only the corrected code snippet.") as ->.
  { cbn [prompt_of]. unfold fix_prompt.
    destruct (programming_lang req) as [[|c lang]|]; cbn [truthy fmt];
      rewrite ?append_assoc; reflexivity. }
  by destruct (gemini _ _).
Qed.

Lemma fix_sends_the_fenced_snippet_witness :
  sessions one_session !! "s1" = Some a_py ∧
  outbox (fix_ (gemini_replies "print(1)")
            {| session_id := "s1"; snippet := "print(1";
               question := Some "why?"; programming_lang := Some "python" |}
            one_session).2 =
    [ {| prompt_text :=
           "Programming language: python" +:+ LF +:+ LF
           +:+ "Fix any bugs in the following code snippet:" +:+ LF +:+ LF
           +:+ "```" +:+ LF +:+ "print(1" +:+ LF +:+ "```" +:+ LF +:+ LF
           +:+ "Return only the corrected code snippet.";
         timeout := 60 |} ].
Proof.
  split; [reflexivity|].
  exact (fix_sends_the_fenced_snippet (gemini_replies "print(1)")
           {| session_id := "s1"; snippet := "print(1";
              question := Some "why?"; programming_lang := Some "python" |}
           one_session a_py eq_refl).
Defined.

(** On a stored session [method_completion] sends, with timeout 60, the
    language line when [programming_lang] is a non-empty string, then the
    instruction, the snippet, the stored file under ["Full context:"] and
    the closing instruction.  Neither the question nor the history is part
    of it. *)
Theorem method_completion_sends_snippet_and_file gemini req w session :
  sessions w !! session_id req = Some session →
  outbox (method_completion gemini req w).2 =
    outbox w ++
    [ {| prompt_text :=
           match programming_lang req with
           | Some (String c lang) => "Programming language: " +:+ String c lang +:+ LF
           | _ => ""
           end
           +:+ "Complete the following method within the context of the code:" +:+ LF
           +:+ snippet req +:+ LF +:+ LF
           +:+ "Full context:" +:+ LF +:+ full_file session +:+ LF +:+ LF
           +:+ "Return only the completed method implementation.";
         timeout := 60 |} ].
Proof.
  intros Hsid.
  change (method_completion gemini req w)
    with (snippet_handler gemini MethodCompletion req w).
  rewrite snippet_handler_run, Hsid. cbn zeta.
  assert (prompt_of MethodCompletion req session =
          match programming_lang req with
          | Some (String c lang) => "Programming language: " +:+ String c lang +:+ LF
          | _ => ""
          end
          +:+ "Complete the following method within the context of the code:" +:+ LF
          +:+ snippet req +:+ LF +:+ LF
          +:+ "Full context:" +:+ LF +:+ full_file session +:+ LF +:+ LF
          +:+ "Return only the completed method implementation.") as ->.
  { cbn [prompt_of]. unfold method_completion_prompt.
    destruct (programming_lang req) as [[|c lang]|]; cbn [truthy fmt];
      rewrite ?append_assoc; reflexivity. }
  by destruct (gemini _ _).
Qed.

Lemma method_completion_sends_snippet_and_file_witness :
  sessions one_session !! "s1" = Some a_py ∧
  outbox (method_completion (gemini_fails BadStatus "503 Server Error")
            {| session_id := "s1"; snippet := "def f():";
               question := None; programming_lang := Some "" |}
            one_session).2 =
    [ {| prompt_text :=
           "Complete the following method within the context of the code:" +:+ LF
           +:+ "def f():" +:+ LF +:+ LF
           +:+ "Full context:" +:+ LF +:+ "print(1)" +:+ LF +:+ LF
           +:+ "Return only the completed method implementation.";
         timeout := 60 |} ].
Proof.
  split; [reflexivity|].
  exact (method_completion_sends_snippet_and_file
           (gemini_fails BadStatus "503 Server Error")
           {| session_id := "s1"; snippet := "def f():";
              question := None; programming_lang := Some "" |}
           one_session a_py eq_refl).
Defined.

(** ** How the endpoints compose *)

(** Once [explain], [fix] or [method_completion] has answered on a session,
    the prompt of any later [explain] request on that session is the prompt
    it would have had before, followed by the lines of the exchange just
    recorded: the snippet under ["user:"] and the answer under
    ["assistant:"]. *)
Theorem later_explain_prompt_carries_the_exchange gemini endpoint req w body w' :
  snippet_handler gemini endpoint req w = (inr body, w') →
  ∃ session session' text,
    sessions w !! session_id req = Some session ∧
    sessions w' !! session_id req = Some session' ∧
    body = [(response_key endpoint, text)] ∧
    ∀ later : SnippetRequest,
      explain_prompt later session' =
        explain_prompt later session
        +:+ "user:" +:+ LF +:+ snippet req +:+ LF
        +:+ "assistant:" +:+ LF +:+ text +:+ LF.
Proof.
  intros Hrun.
  destruct (snippet_handler_replied _ _ _ _ _ _ Hrun)
    as (session & text & Hsid & Hreply & -> & Hstore).
  eexists session, _, text. split; [done|].
  split; [rewrite Hstore; by apply two_appends_lookup|].
  split; [done|]. intros later.
  rewrite !explain_prompt_closed_form. unfold explain_prompt_layout.
  cbn [history full_file]. rewrite history_lines_app.
  cbn [history_lines]. unfold turn_lines, user_turn, assistant_turn.
  cbn [role content]. rewrite !append_assoc. reflexivity.
Qed.

Lemma later_explain_prompt_carries_the_exchange_witness :
  ∃ session session' text,
    sessions one_session !! "s1" = Some session ∧
    ({[ "s1" := a_py_explained ]} : gmap string Session) !! "s1" = Some session' ∧
    [("fixed_code", "prints 1")] = [(response_key Fix, text)] ∧
    ∀ later : SnippetRequest,
      explain_prompt later session' =
        explain_prompt later session
        +:+ "user:" +:+ LF +:+ "print(1)" +:+ LF
        +:+ "assistant:" +:+ LF +:+ text +:+ LF.
Proof.
  exact (later_explain_prompt_carries_the_exchange
           (gemini_replies "prints 1") Fix (ask "s1" None) one_session
           [("fixed_code", "prints 1")]
           {| sessions := {[ "s1" := a_py_explained ]};
              outbox := [ {| prompt_text := fix_prompt (ask "s1" None); timeout := 60 |} ] |}
           eq_refl).
Defined.

(** Once [explain], [fix] or [method_completion] has answered on a session,
    [get_full_explanation] on that session gives the join of the answers
    recorded before followed by the new answer, where before the call it
    gave the join of the answers recorded before. *)
Theorem full_explanation_gains_the_answer gemini endpoint req w body w' :
  snippet_handler gemini endpoint req w = (inr body, w') →
  ∃ session text,
    sessions w !! session_id req = Some session ∧
    body = [(response_key endpoint, text)] ∧
    (get_full_explanation (session_id req) w).1 =
      inr [("full_explanation", join (LF +:+ LF) (answers (history session)))] ∧
    (get_full_explanation (session_id req) w').1 =
      inr [("full_explanation", join (LF +:+ LF) (answers (history session) ++ [text]))].
Proof.
  intros Hrun.
  destruct (snippet_handler_replied _ _ _ _ _ _ Hrun)
    as (session & text & Hsid & Hreply & -> & Hstore).
  exists session, text. split; [done|]. split; [done|].
  unfold get_full_explanation, bind, get_sessions.
  rewrite Hsid, Hstore, (two_appends_lookup _ _ _ _ _ Hsid). cbn.
  split; [reflexivity|].
  unfold full_explanation, answers. rewrite filter_app, fmap_app. reflexivity.
Qed.

Lemma full_explanation_gains_the_answer_witness :
  ∃ session text,
    ({[ "s1" := a_py_explained ]} : gmap string Session) !! "s1" = Some session ∧
    [("completed_method", "def f(): pass")] = [(response_key MethodCompletion, text)] ∧
    (get_full_explanation "s1"
       {| sessions := {[ "s1" := a_py_explained ]}; outbox := [] |}).1 =
      inr [("full_explanation", join (LF +:+ LF) (answers (history session)))] ∧
    (get_full_explanation "s1"
       (snippet_handler (gemini_replies "def f(): pass") MethodCompletion (ask "s1" None)
          {| sessions := {[ "s1" := a_py_explained ]}; outbox := [] |}).2).1 =
      inr [("full_explanation", join (LF +:+ LF) (answers (history session) ++ [text]))].
Proof.
  exact (full_explanation_gains_the_answer
           (gemini_replies "def f(): pass") MethodCompletion (ask "s1" None)
           {| sessions := {[ "s1" := a_py_explained ]}; outbox := [] |}
           [("completed_method", "def f(): pass")] _ eq_refl).
Defined.

Example full_explanation_after_completion :
  (get_full_explanation "s1"
     (snippet_handler (gemini_replies "def f(): pass") MethodCompletion (ask "s1" None)
        {| sessions := {[ "s1" := a_py_explained ]}; outbox := [] |}).2).1
  = inr [("full_explanation", "prints 1" +:+ LF +:+ LF +:+ "def f(): pass")].
Proof. reflexivity. Qed.

(** ** Starting sessions *)

(** With an identifier not yet in use, [start_session] adds exactly one
    session: the store is the store before with the new session under the
    new identifier, it has one more entry, every session stored before is
    still there unchanged, and no outbound call is made. *)
Theorem start_session_adds_one_session uuid4 req w :
  sessions w !! uuid4 = None →
  sessions (start_session uuid4 req w).2 =
    <[uuid4 := {| file_name := StartSessionRequest.file_name req;
                  full_file := StartSessionRequest.full_file req;
                  history := [] |}]> (sessions w) ∧
  size (sessions (start_session uuid4 req w).2) = S (size (sessions w)) ∧
  (∀ sid session, sessions w !! sid = Some session →
                  sessions (start_session uuid4 req w).2 !! sid = Some session) ∧
  outbox (start_session uuid4 req w).2 = outbox w.
Proof.
  intros Hfresh. cbn. split; [done|].
  split; [by apply map_size_insert_None|].
  split; [|done]. intros sid session Hsid.
  rewrite lookup_insert_ne; [done|]. intros ->. congruence.
Qed.

Lemma start_session_adds_one_session_witness :
  sessions one_session !! "s2" = None ∧
  size (sessions (start_session "s2"
                    {| StartSessionRequest.file_name := "b.py";
                       StartSessionRequest.full_file := "print(2)" |}
                    one_session).2) = 2%nat.
Proof.
  split; [reflexivity|].
  exact (proj1 (proj2 (start_session_adds_one_session "s2"
                         {| StartSessionRequest.file_name := "b.py";
                            StartSessionRequest.full_file := "print(2)" |}
                         one_session eq_refl))).
Defined.

(** Right after [start_session], whatever the identifier drawn and the
    state, [get_full_explanation] on the identifier returned answers the
    empty string: the join over an empty history. *)
Theorem full_explanation_of_a_new_session_is_empty uuid4 req w :
  (get_full_explanation uuid4 (start_session uuid4 req w).2).1 =
    inr [("full_explanation", "")].
Proof.
  unfold get_full_explanation, bind, get_sessions. cbn.
  by rewrite lookup_insert_eq.
Qed.

(** ** What every run of the service keeps *)

Lemma handle_keeps_identifiers gemini call w :
  dom (sessions w) ⊆ dom (sessions (handle gemini call w).2).
Proof.
  destruct call as [uuid4 req|endpoint req|sid]; cbn [handle].
  - cbn. rewrite dom_insert_L. set_solver.
  - rewrite snippet_handler_run.
    destruct (sessions w !! session_id req) as [session|]; [|done].
    cbn zeta. destruct (gemini _ _); cbn [snd sessions]; [done|].
    by rewrite two_appends_dom.
  - by rewrite get_full_explanation_state.
Qed.

(** No request ever removes a session: along any run of the service,
    whatever the endpoint does and whatever identifiers are drawn, every
    identifier of the store stays an identifier of the store. *)
Theorem sessions_are_never_removed calls w :
  dom (sessions w) ⊆ dom (sessions (serve calls w)).
Proof.
  revert w. induction calls as [|[gemini call] rest IH]; intros w; [done|].
  cbn [serve]. etrans; [apply (handle_keeps_identifiers gemini call)|apply IH].
Qed.

Lemma handle_keeps_file_data gemini call w sid session :
  uuid_is_fresh call w →
  sessions w !! sid = Some session →
  ∃ session',
    sessions (handle gemini call w).2 !! sid = Some session' ∧
    file_name session' = file_name session ∧
    full_file session' = full_file session.
Proof.
  destruct call as [uuid4 req|endpoint req|sid']; cbn [handle uuid_is_fresh].
  - intros Hfresh Hsid. exists session. split; [|done].
    cbn. rewrite lookup_insert_ne; [done|]. intros ->. congruence.
  - intros _ Hsid. rewrite snippet_handler_run.
    destruct (sessions w !! session_id req) as [target|] eqn:Htarget;
      [|by exists session].
    cbn zeta. destruct (gemini _ _) as [kind message|text]; cbn [snd sessions];
      [by exists session|].
    destruct (decide (sid = session_id req)) as [->|Hne].
    + rewrite (two_appends_lookup _ _ _ _ _ Htarget). eexists. split; [done|].
      cbn. split; congruence.
    + rewrite two_appends_other by done. by exists session.
  - intros _ Hsid. rewrite get_full_explanation_state. by exists session.
Qed.

(** The file name and the file text of a session are fixed when it is
    started: along any run of the service in which the identifiers drawn for
    new sessions are fresh, a stored session stays stored with the same
    [file_name] and [full_file]. *)
Theorem file_data_never_changes calls w sid session :
  fresh_run calls w →
  sessions w !! sid = Some session →
  ∃ session',
    sessions (serve calls w) !! sid = Some session' ∧
    file_name session' = file_name session ∧
    full_file session' = full_file session.
Proof.
  revert w session. induction calls as [|[gemini call] rest IH]; intros w session.
  - intros _ Hsid. by exists session.
  - cbn [fresh_run serve]. intros [Hfresh Hrest] Hsid.
    destruct (handle_keeps_file_data gemini call w sid session Hfresh Hsid)
      as (mid & Hmid & Hname & Hfile).
    destruct (IH _ mid Hrest Hmid) as (session' & Hsid' & Hname' & Hfile').
    exists session'. split; [done|]. split; congruence.
Qed.

Lemma file_data_never_changes_witness :
  fresh_run
    [ (gemini_replies "prints 1", Snippet Explain (ask "s1" None));
      (gemini_fails Timeout "Read timed out.", Snippet Fix (ask "s1" None));
      (gemini_replies "prints 2",
       StartSession "s2" {| StartSessionRequest.file_name := "b.py";
                            StartSessionRequest.full_file := "print(2)" |}) ]
    one_session ∧
  sessions one_session !! "s1" = Some a_py ∧
  ∃ session',
    sessions (serve
      [ (gemini_replies "prints 1", Snippet Explain (ask "s1" None));
        (gemini_fails Timeout "Read timed out.", Snippet Fix (ask "s1" None));
        (gemini_replies "prints 2",
         StartSession "s2" {| StartSessionRequest.file_name := "b.py";
                              StartSessionRequest.full_file := "print(2)" |}) ]
      one_session) !! "s1" = Some session' ∧
    file_name session' = "a.py" ∧
    full_file session' = "print(1)".
Proof.
  split; [cbn; repeat split; reflexivity|]. split; [reflexivity|].
  apply (file_data_never_changes _ one_session "s1" a_py).
  - cbn. repeat split; reflexivity.
  - reflexivity.
Defined.

Lemma handle_leaves_other_sessions gemini call w sid :
  ¬ writes_to call sid →
  sessions (handle gemini call w).2 !! sid = sessions w !! sid.
Proof.
  destruct call as [uuid4 req|endpoint req|sid']; cbn [handle writes_to].
  - intros Hne. cbn. by rewrite lookup_insert_ne.
  - intros Hne. rewrite snippet_handler_run.
    destruct (sessions w !! session_id req) as [target|]; [|done].
    cbn zeta. destruct (gemini _ _); cbn [snd sessions]; [done|].
    rewrite two_appends_other; [done|]. by intros ->.
  - intros _. by rewrite get_full_explanation_state.
Qed.

(** Sessions do not interfere: along any run of the service in which no
    [start_session] draws the identifier and no [explain], [fix] or
    [method_completion] request names it, the entry of that identifier in
    the store (a session or none) is the same at the end as at the start,
    whatever happens to the other sessions and whatever the endpoint does. *)
Theorem other_sessions_are_left_alone calls w sid :
  Forall (fun served => ¬ writes_to served.2 sid) calls →
  sessions (serve calls w) !! sid = sessions w !! sid.
Proof.
  intros Hcalls. revert w.
  induction Hcalls as [|[gemini call] rest Hcall _ IH]; intros w; [done|].
  cbn [serve]. rewrite IH. by apply handle_leaves_other_sessions.
Qed.

Lemma other_sessions_are_left_alone_witness :
  Forall (fun served : (string -> Z -> UpstreamResult) * Call => ¬ writes_to served.2 "s1")
    [ (gemini_replies "prints 2",
       StartSession "s2" {| StartSessionRequest.file_name := "b.py";
                            StartSessionRequest.full_file := "print(2)" |});
      (gemini_replies "prints 2", Snippet Explain (ask "s2" None));
      (gemini_replies "prints 2", GetFullExplanation "s1") ] ∧
  sessions (serve
    [ (gemini_replies "prints 2",
       StartSession "s2" {| StartSessionRequest.file_name := "b.py";
                            StartSessionRequest.full_file := "print(2)" |});
      (gemini_replies "prints 2", Snippet Explain (ask "s2" None));
      (gemini_replies "prints 2", GetFullExplanation "s1") ]
    one_session) !! "s1" = Some a_py.
Proof.
  assert (Hcalls :
    Forall (fun served : (string -> Z -> UpstreamResult) * Call =>
              ¬ writes_to served.2 "s1")
      [ (gemini_replies "prints 2",
         StartSession "s2" {| StartSessionRequest.file_name := "b.py";
                              StartSessionRequest.full_file := "print(2)" |});
        (gemini_replies "prints 2", Snippet Explain (ask "s2" None));
        (gemini_replies "prints 2", GetFullExplanation "s1") ]).
  { repeat constructor; cbn; try discriminate; tauto. }
  split; [exact Hcalls|].
  exact (other_sessions_are_left_alone _ one_session "s1" Hcalls).
Defined.

(** *** Histories are made of whole exchanges *)

Lemma exchanges_only_app (h k : list Turn) :
  exchanges_only h = true → exchanges_only (h ++ k) = exchanges_only k.
Proof.
  enough (Hboth : (exchanges_only h = true → exchanges_only (h ++ k) = exchanges_only k) ∧
                  ∀ u, exchanges_only (u :: h) = true →
                       exchanges_only ((u :: h) ++ k) = exchanges_only k)
    by apply Hboth.
  induction h as [|a rest [IH1 IH2]].
  - split; [done|]. intros u Hu. discriminate Hu.
  - split; [apply IH2|].
    intros u Hu. cbn [exchanges_only app] in *.
    apply andb_true_iff in Hu as [Hroles Hrest].
    rewrite Hroles. by apply IH1.
Qed.

Lemma exchanges_only_count (h : list Turn) :
  exchanges_only h = true → length h = (2 * length (answers h))%nat.
Proof.
  enough (Hboth : (exchanges_only h = true → length h = (2 * length (answers h))%nat) ∧
                  ∀ u, exchanges_only (u :: h) = true →
                       length (u :: h) = (2 * length (answers (u :: h)))%nat)
    by apply Hboth.
  induction h as [|a rest [IH1 IH2]].
  - split; [done|]. intros u Hu. discriminate Hu.
  - split; [apply IH2|].
    intros u Hu. cbn [exchanges_only] in Hu.
    apply andb_true_iff in Hu as [Hroles Hrest].
    apply andb_true_iff in Hroles as [Hu Ha].
    apply bool_decide_eq_true in Hu. apply bool_decide_eq_true in Ha.
    unfold answers in *. rewrite !filter_cons.
    destruct (decide (role u = "assistant")) as [Hua|_]; [congruence|].
    destruct (decide (role a = "assistant")) as [_|Hna]; [|done].
    cbn [fmap list_fmap length]. rewrite (IH1 Hrest). lia.
Qed.

Lemma handle_keeps_exchanges gemini call w :
  (∀ sid session, sessions w !! sid = Some session →
                  exchanges_only (history session) = true) →
  ∀ sid session, sessions (handle gemini call w).2 !! sid = Some session →
                 exchanges_only (history session) = true.
Proof.
  intros Hinv.
  destruct call as [uuid4 req|endpoint req|sid']; cbn [handle].
  - cbn. intros sid session. rewrite lookup_insert.
    case_decide; [by intros [= <-]|apply Hinv].
  - rewrite snippet_handler_run.
    destruct (sessions w !! session_id req) as [target|] eqn:Htarget; [|apply Hinv].
    cbn zeta. destruct (gemini _ _) as [kind message|text]; cbn [snd sessions];
      [apply Hinv|].
    rewrite (two_appends_insert _ _ _ _ _ Htarget).
    intros sid session. rewrite lookup_insert.
    case_decide; [|apply Hinv].
    intros [= <-]. cbn [history].
    by rewrite exchanges_only_app by by eapply Hinv.
  - by rewrite get_full_explanation_state.
Qed.

(** Along any run of the service from the empty store, whatever the
    endpoint does and whatever identifiers are drawn, every stored history
    is a sequence of whole exchanges, a ["user"] turn then an
    ["assistant"] turn: a failed request never leaves half an exchange
    behind.  Hence a history has twice as many turns as
    [get_full_explanation] joins answers. *)
Theorem histories_are_whole_exchanges calls sid session :
  sessions (serve calls {| sessions := ∅; outbox := [] |}) !! sid = Some session →
  exchanges_only (history session) = true ∧
  length (history session) = (2 * length (answers (history session)))%nat.
Proof.
  intros Hsid.
  assert (Hinv : ∀ w,
    (∀ sid session, sessions w !! sid = Some session →
                    exchanges_only (history session) = true) →
    ∀ sid session, sessions (serve calls w) !! sid = Some session →
                   exchanges_only (history session) = true).
  { clear sid session Hsid.
    induction calls as [|[gemini call] rest IH]; intros w Hw; [done|].
    cbn [serve]. apply IH. by apply handle_keeps_exchanges. }
  assert (Hwhole : exchanges_only (history session) = true).
  { eapply Hinv; [|exact Hsid]. intros k s. cbn. by rewrite lookup_empty. }
  split; [done|]. by apply exchanges_only_count.
Qed.

Lemma histories_are_whole_exchanges_witness :
  sessions (serve
    [ (gemini_replies "prints 1",
       StartSession "s1" {| StartSessionRequest.file_name := "a.py";
                            StartSessionRequest.full_file := "print(1)" |});
      (gemini_fails MalformedBody "'candidates'", Snippet Fix (ask "s1" None));
      (gemini_replies "prints 1", Snippet Explain (ask "s1" None)) ]
    {| sessions := ∅; outbox := [] |}) !! "s1" = Some a_py_explained ∧
  exchanges_only (history a_py_explained) = true ∧
  length (history a_py_explained) = (2 * length (answers (history a_py_explained)))%nat.
Proof.
  split; [reflexivity|].
  exact (histories_are_whole_exchanges
           [ (gemini_replies "prints 1",
              StartSession "s1" {| StartSessionRequest.file_name := "a.py";
                                   StartSessionRequest.full_file := "print(1)" |});
             (gemini_fails MalformedBody "'candidates'", Snippet Fix (ask "s1" None));
             (gemini_replies "prints 1", Snippet Explain (ask "s1" None)) ]
           "s1" a_py_explained eq_refl).
Defined.

(** * Properties of the test server *)

Lemma test_two_appends_insert (store : gmap string TestServer.Session)
    (sid : string) (session : TestServer.Session) (u a : TestServer.Turn) :
  store !! sid = Some session →
  alter (TestServer.append_turn a) sid (alter (TestServer.append_turn u) sid store) =
    <[sid := {| TestServer.file_name := TestServer.file_name session;
                TestServer.full_file := TestServer.full_file session;
                TestServer.history := TestServer.history session ++ [u; a] |}]> store.
Proof.
  intros Hsid. apply map_eq. intros k.
  destruct (decide (sid = k)) as [->|Hne].
  - rewrite !lookup_alter_eq, lookup_insert_eq, Hsid. cbn.
    unfold TestServer.append_turn; cbn. by rewrite <- app_assoc.
  - by rewrite !lookup_alter_ne, lookup_insert_ne.
Qed.

(** On a stored session the [explain], [fix] and [method_completion] of the
    test server always answer, with the snippet of the request under the
    endpoint's key ([None] if the request has no snippet), and append to the
    history of that session, and of no other, a ["user"] turn and an
    ["assistant"] turn that both hold the snippet. *)
Theorem test_server_echoes_the_snippet endpoint req
    (store : gmap string TestServer.Session) session :
  store !! TestServer.session_id req = Some session →
  TestServer.snippet_handler endpoint req store =
    (inr [(response_key endpoint, TestServer.snippet req)],
     <[TestServer.session_id req :=
         {| TestServer.file_name := TestServer.file_name session;
            TestServer.full_file := TestServer.full_file session;
            TestServer.history :=
              TestServer.history session ++
              [ {| TestServer.role := "user";
                   TestServer.content := TestServer.snippet req |};
                {| TestServer.role := "assistant";
                   TestServer.content := TestServer.snippet req |} ] |}]> store).
Proof.
  intros Hsid.
  destruct endpoint; cbn [TestServer.snippet_handler response_key];
    unfold TestServer.explain, TestServer.fix_, TestServer.method_completion;
    rewrite Hsid; cbn zeta;
    by rewrite (test_two_appends_insert _ _ _ _ _ Hsid).
Qed.

Lemma test_server_echoes_the_snippet_witness :
  ({[ "s1" := {| TestServer.file_name := "a.py"; TestServer.full_file := "print(1)";
                 TestServer.history := [] |} ]} : gmap string TestServer.Session)
    !! "s1"
  = Some {| TestServer.file_name := "a.py"; TestServer.full_file := "print(1)";
            TestServer.history := [] |} ∧
  TestServer.fix_
    {| TestServer.session_id := "s1"; TestServer.snippet := None;
       TestServer.question := None; TestServer.programming_lang := None |}
    {[ "s1" := {| TestServer.file_name := "a.py"; TestServer.full_file := "print(1)";
                  TestServer.history := [] |} ]}
  = (inr [("fixed_code", None)],
     {[ "s1" := {| TestServer.file_name := "a.py"; TestServer.full_file := "print(1)";
                   TestServer.history :=
                     [ {| TestServer.role := "user"; TestServer.content := None |};
                       {| TestServer.role := "assistant"; TestServer.content := None |} ]
                |} ]}).
Proof.
  split; [reflexivity|].
  etrans;
    [exact (test_server_echoes_the_snippet Fix
              {| TestServer.session_id := "s1"; TestServer.snippet := None;
                 TestServer.question := None; TestServer.programming_lang := None |}
              {[ "s1" := {| TestServer.file_name := "a.py";
                            TestServer.full_file := "print(1)";
                            TestServer.history := [] |} ]}
              _ eq_refl)
    |reflexivity].
Defined.

(** [summary] of the test server only reads: it leaves the store as it was,
    whatever the request.  Right after [start_session], a [summary] request
    with the identifier returned answers the file text the session was
    started with, whatever the other fields of the request. *)
Theorem test_server_summary_returns_the_file
    uuid4 start snippet question lang (store : gmap string TestServer.Session) :
  (∀ req, (TestServer.summary req store).2 = store) ∧
  TestServer.summary
    {| TestServer.session_id := uuid4; TestServer.snippet := snippet;
       TestServer.question := question; TestServer.programming_lang := lang |}
    (TestServer.start_session uuid4 start store).2
  = (inr [("explanation", Some (StartSessionRequest.full_file start))],
     (TestServer.start_session uuid4 start store).2).
Proof.
  split.
  - intros req. unfold TestServer.summary.
    by destruct (store !! TestServer.session_id req).
  - unfold TestServer.summary, TestServer.start_session. cbn.
    by rewrite lookup_insert_eq.
Qed.

(** With an identifier that is not a key of the store, [explain], [summary],
    [fix] and [method_completion] of the test server raise the 404 with
    detail ["Session not found"] and leave the store as it was, whatever
    the other fields of the request. *)
Theorem test_server_unknown_session_is_404
    req (store : gmap string TestServer.Session) :
  store !! TestServer.session_id req = None →
  (∀ endpoint, TestServer.snippet_handler endpoint req store =
                 (inl (HTTPException 404 "Session not found"), store)) ∧
  TestServer.summary req store = (inl (HTTPException 404 "Session not found"), store).
Proof.
  intros Hsid. split.
  - intros endpoint.
    destruct endpoint; cbn [TestServer.snippet_handler];
      unfold TestServer.explain, TestServer.fix_, TestServer.method_completion;
      by rewrite Hsid.
  - unfold TestServer.summary. by rewrite Hsid.
Qed.

Lemma test_server_unknown_session_is_404_witness :
  (∅ : gmap string TestServer.Session) !! "garbage" = None ∧
  TestServer.summary
    {| TestServer.session_id := "garbage"; TestServer.snippet := Some "print(1)";
       TestServer.question := None; TestServer.programming_lang := None |} ∅
  = (inl (HTTPException 404 "Session not found"), ∅).
Proof.
  split; [reflexivity|].
  exact (proj2 (test_server_unknown_session_is_404
                  {| TestServer.session_id := "garbage";
                     TestServer.snippet := Some "print(1)";
                     TestServer.question := None;
                     TestServer.programming_lang := None |} ∅ eq_refl)).
Defined.

(** ** The test server against the server *)

Lemma stub_append_turn (turn : Turn) (sid : string) (store : gmap string Session) :
  alter (TestServer.append_turn (stub_turn turn)) sid (stub_session <$> store) =
    stub_session <$> alter (append_turn turn) sid store.
Proof.
  apply map_eq. intros k. rewrite lookup_fmap.
  destruct (decide (sid = k)) as [->|Hne].
  - rewrite !lookup_alter_eq, lookup_fmap.
    destruct (store !! k) as [session|]; [|done]. cbn. f_equal.
    unfold stub_session, TestServer.append_turn, append_turn. cbn.
    by rewrite fmap_app.
  - by rewrite !lookup_alter_ne, lookup_fmap.
Qed.

(** The test server is the server with the model stubbed to repeat the
    snippet: on the same store and the same request (seen through the test
    server's types), each of [explain], [fix] and [method_completion] of the
    test server gives the response and reaches the store that the server
    gives and reaches when the endpoint replies the snippet of the
    request. *)
Theorem test_server_is_the_server_with_an_echo endpoint req w :
  TestServer.snippet_handler endpoint (stub_request req) (stub_session <$> sessions w) =
    (stub_response (snippet_handler (gemini_replies (snippet req)) endpoint req w).1,
     stub_session <$> sessions (snippet_handler (gemini_replies (snippet req)) endpoint req w).2).
Proof.
  rewrite snippet_handler_run.
  destruct endpoint; cbn [TestServer.snippet_handler];
    unfold TestServer.explain, TestServer.fix_, TestServer.method_completion;
    cbn [stub_request TestServer.session_id TestServer.snippet];
    rewrite lookup_fmap;
    (destruct (sessions w !! session_id req) as [session|]; [|done]);
    cbn; f_equal; by rewrite <- !stub_append_turn.
Qed.
